(** * arch/arm/mach-GM/include/mach/platform-GM8181/vmalloc.h

    The header is a piece of C preprocessor input.  Its text is kept below
    line by line; translation phase 3 (comments become one space, the text is
    cut into lines and words) and phase 4 (directives are executed against a
    macro table) are modelled as executable functions, and the header's
    behaviour is what those functions compute on its text. *)

From stdpp Require Import gmap strings list fin_maps.
From Stdlib Require Import Ascii NArith.

Local Open Scope string_scope.
Local Open Scope list_scope.

(** ** The source text *)

Module Source.

Definition LF : string := String (Ascii.ascii_of_nat 10) EmptyString.
Definition TAB : string := String (Ascii.ascii_of_nat 9) EmptyString.

(** The 34 lines of vmalloc.h, in order.  Line 31 separates the macro name
    from its replacement list with a tab character. *)
Definition vmalloc_h_lines : list string :=
  [ "/*"
  ; " *  arch/arm/mach-GM/include/mach/platform-GM8181/vmalloc.h"
  ; " *  "
  ; " *  Faraday Platform Dependent Virtual Memory Configuration"
  ; " *  "
  ; " *  Copyright (C) 2005 Faraday Corp. (http://www.faraday-tech.com)"
  ; " *"
  ; " * This program is free software; you can redistribute it and/or modify"
  ; " * it under the terms of the GNU General Public License as published by"
  ; " * the Free Software Foundation; either version 2 of the License, or"
  ; " * (at your option) any later version."
  ; " *"
  ; " * This program is distributed in the hope that it will be useful,"
  ; " * but WITHOUT ANY WARRANTY; without even the implied warranty of"
  ; " * MERCHANTABILITY or FITNESS FOR A PARTICULAR PURPOSE.  See the"
  ; " * GNU General Public License for more details."
  ; " *"
  ; " * You should have received a copy of the GNU General Public License"
  ; " * along with this program; if not, write to the Free Software"
  ; " * Foundation, Inc., 59 Temple Place, Suite 330, Boston, MA  02111-1307  USA"
  ; " *  "
  ; " * ChangeLog"
  ; " *"
  ; " *  Luke Lee  10/06/2005  Created"
  ; " */"
  ; ""
  ; "#ifndef __GM_PLATFORM_VMALLOC_HEADER__"
  ; "#define __GM_PLATFORM_VMALLOC_HEADER__"
  ; ""
  ; "#ifndef VMALLOC_END"
  ; "#define VMALLOC_END" +:+ TAB +:+ "0xe0000000"
  ; "#endif"
  ; ""
  ; "#endif /* __GM_PLATFORM_VMALLOC_HEADER__ */" ].

Fixpoint join_lines (ls : list string) : string :=
  match ls with
  | [] => ""
  | [l] => l
  | l :: ls' => l +:+ LF +:+ join_lines ls'
  end.

Definition vmalloc_h_text : string := join_lines vmalloc_h_lines.

End Source.

(** ** Translation phase 3: comments, lines, words *)

Module Lexer.

(** A block comment is replaced by one space; a comment still open at the end
    of the file is an error.  (The header has no string literal, character
    constant or line comment, none of which is modelled.) *)
Fixpoint strip_comments (in_comment : bool) (s : string) : option string :=
  match s with
  | EmptyString => if in_comment then None else Some EmptyString
  | String c rest =>
      if in_comment then
        match c, rest with
        | "*"%char, String "/"%char rest' => strip_comments false rest'
        | _, _ => strip_comments true rest
        end
      else
        match c, rest with
        | "/"%char, String "*"%char rest' =>
            String " "%char <$> strip_comments true rest'
        | _, _ => String c <$> strip_comments false rest
        end
  end.

Definition is_newline (c : ascii) : bool := Nat.eqb (Ascii.nat_of_ascii c) 10.

(** Horizontal white space: space, tab, vertical tab, form feed, carriage
    return. *)
Definition is_blank (c : ascii) : bool :=
  let n := Ascii.nat_of_ascii c in
  Nat.eqb n 32 || Nat.eqb n 9 || Nat.eqb n 11 || Nat.eqb n 12 || Nat.eqb n 13.

(** [split_on p cur s] cuts [s] at every character satisfying [p]; [cur] is
    the piece being read, reversed. *)
Fixpoint split_on (p : ascii -> bool) (cur : string) (s : string) : list string :=
  match s with
  | EmptyString => [String.rev cur]
  | String c rest =>
      if p c then String.rev cur :: split_on p EmptyString rest
      else split_on p (String c cur) rest
  end.

Definition split_lines (s : string) : list string := split_on is_newline "" s.

Definition nonempty (s : string) : bool :=
  match s with EmptyString => false | _ => true end.

(** The white-space separated words of one line. *)
Definition words (s : string) : list string :=
  List.filter nonempty (split_on is_blank "" s).

Definition is_letter (c : ascii) : bool :=
  let n := Ascii.nat_of_ascii c in
  (Nat.leb 65 n && Nat.leb n 90) || (Nat.leb 97 n && Nat.leb n 122) || Nat.eqb n 95.

Definition is_digit (c : ascii) : bool :=
  let n := Ascii.nat_of_ascii c in Nat.leb 48 n && Nat.leb n 57.

Fixpoint all_chars (p : ascii -> bool) (s : string) : bool :=
  match s with
  | EmptyString => true
  | String c rest => p c && all_chars p rest
  end.

Definition is_identifier (s : string) : bool :=
  match s with
  | EmptyString => false
  | String c rest => is_letter c && all_chars (fun d => is_letter d || is_digit d) rest
  end.

End Lexer.

(** ** Translation phase 4: directives and the macro table *)

Module Cpp.

Import Lexer.

(** A macro definition: [params] is [None] for an object-like macro, and
    [body] is its replacement list. *)
Record macro : Type := Macro { params : option (list string); body : list string }.

#[global] Instance macro_eq_dec : EqDecision macro.
Proof. solve_decision. Defined.

Definition object_like (toks : list string) : macro :=
  {| params := None; body := toks |}.

(** The lines the header is made of.  [Bad] is any directive outside the
    fragment ([#ifndef NAME], [#define NAME tokens], [#endif], the null
    directive); [Text] is a line that is not a directive. *)
Inductive line : Type :=
  | Ifndef (name : string)
  | Define (name : string) (m : macro)
  | Endif
  | Text (toks : list string)
  | Bad (ws : list string).

Definition parse_directive (d : string) (args : list string) : line :=
  if String.eqb d "ifndef" then
    match args with
    | [n] => if is_identifier n then Ifndef n else Bad (d :: args)
    | _ => Bad (d :: args)
    end
  else if String.eqb d "define" then
    match args with
    | n :: toks => if is_identifier n then Define n (object_like toks) else Bad (d :: args)
    | [] => Bad (d :: args)
    end
  else if String.eqb d "endif" then
    match args with
    | [] => Endif
    | _ => Bad (d :: args)
    end
  else Bad (d :: args).

(** A line whose first word starts with [#] is a directive; the directive
    name may follow the [#] directly or after white space. *)
Definition parse_line (ws : list string) : line :=
  match ws with
  | [] => Text []
  | String "#"%char EmptyString :: [] => Text []
  | String "#"%char EmptyString :: d :: args => parse_directive d args
  | String "#"%char d :: args => parse_directive d args
  | _ => Text ws
  end.

Inductive diagnostic : Type :=
  | Redefined (name : string).

Inductive cpp_error : Type :=
  | UnterminatedComment
  | UnsupportedDirective (ws : list string)
  | EndifWithoutIf
  | UnterminatedConditional.

Inductive result (A : Type) : Type :=
  | Ok (a : A)
  | Err (e : cpp_error).
Arguments Ok {A} a.
Arguments Err {A} e.

(** The state of the preprocessor while it works through a translation unit:
    the macro table, the diagnostics issued so far, and the tokens passed on
    to the compiler so far (recorded as written, before macro replacement). *)
Record pstate : Type := PState
  { macros : gmap string macro;
    diags : list diagnostic;
    out : list string }.

Definition defined (n : string) (st : pstate) : bool :=
  match macros st !! n with Some _ => true | None => false end.

(** [#define n m]: a new name is entered; a name defined to the same thing is
    left alone; a name defined to something else is diagnosed and replaced. *)
Definition define (n : string) (m : macro) (st : pstate) : pstate :=
  match macros st !! n with
  | None => {| macros := <[n := m]> (macros st); diags := diags st; out := out st |}
  | Some m' =>
      if decide (m' = m) then st
      else {| macros := <[n := m]> (macros st);
              diags := diags st ++ [Redefined n];
              out := out st |}
  end.

Definition emit (toks : list string) (st : pstate) : pstate :=
  match toks with
  | [] => st
  | _ => {| macros := macros st; diags := diags st; out := out st ++ toks |}
  end.

(** The stack of open conditionals: one flag per open [#ifndef], saying
    whether its group is taken.  Lines are processed only when every
    enclosing group is taken. *)
Definition active (cs : list bool) : bool := forallb (fun b => b) cs.

Definition exec_line (l : line) (cs : list bool) (st : pstate)
  : result (list bool * pstate) :=
  match l with
  | Ifndef n => Ok ((active cs && negb (defined n st)) :: cs, st)
  | Endif =>
      match cs with
      | [] => Err EndifWithoutIf
      | _ :: cs' => Ok (cs', st)
      end
  | Define n m => Ok (cs, if active cs then define n m st else st)
  | Text toks => Ok (cs, if active cs then emit toks st else st)
  | Bad ws => Err (UnsupportedDirective ws)
  end.

Fixpoint run (ls : list line) (cs : list bool) (st : pstate) : result pstate :=
  match ls with
  | [] =>
      match cs with
      | [] => Ok st
      | _ :: _ => Err UnterminatedConditional
      end
  | l :: ls' =>
      match exec_line l cs st with
      | Ok (cs', st') => run ls' cs' st'
      | Err e => Err e
      end
  end.

Definition parse_file (text : string) : option (list line) :=
  (fun t => List.map (fun l => parse_line (words l)) (split_lines t))
    <$> strip_comments false text.

(** Processing a file in state [st]: the file's conditionals are its own. *)
Definition preprocess (text : string) (st : pstate) : result pstate :=
  match parse_file text with
  | None => Err UnterminatedComment
  | Some ls => run ls [] st
  end.

(** [#include]-ing vmalloc.h. *)
Definition include_vmalloc_h (st : pstate) : result pstate :=
  preprocess Source.vmalloc_h_text st.

Fixpoint include_times (n : nat) (st : pstate) : result pstate :=
  match n with
  | O => Ok st
  | S n' =>
      match include_vmalloc_h st with
      | Ok st' => include_times n' st'
      | Err e => Err e
      end
  end.

Definition GUARD : string := "__GM_PLATFORM_VMALLOC_HEADER__".
Definition VMALLOC_END : string := "VMALLOC_END".

End Cpp.

(** ** C integer constants *)

Module Literal.

Definition digit_value (c : ascii) : option N :=
  let n := N_of_ascii c in
  if ((48 <=? n) && (n <=? 57))%N then Some (n - 48)%N
  else if ((97 <=? n) && (n <=? 102))%N then Some (n - 87)%N
  else if ((65 <=? n) && (n <=? 70))%N then Some (n - 55)%N
  else None.

Fixpoint digits (base acc : N) (s : string) : option N :=
  match s with
  | EmptyString => Some acc
  | String c rest =>
      match digit_value c with
      | Some d => if (d <? base)%N then digits base (acc * base + d)%N rest else None
      | None => None
      end
  end.

(** The value of an unsuffixed integer constant: [0x]/[0X] starts a
    hexadecimal constant, another leading [0] an octal one, anything else is
    decimal. *)
Definition parse_int_literal (s : string) : option N :=
  match s with
  | EmptyString => None
  | String "0"%char (String "x"%char EmptyString)
  | String "0"%char (String "X"%char EmptyString) => None
  | String "0"%char (String "x"%char ds)
  | String "0"%char (String "X"%char ds) => digits 16 0 ds
  | String "0"%char ds => digits 8 0 ds
  | _ => digits 10 0 s
  end.

(** Modelled from the spec: the width in bits of the platform's pointer-sized
    unsigned integer type.  No file under src declares it; arch/arm of this
    kernel is a 32-bit port. *)
Definition pointer_bits : N := 32.

(** Conversion to the pointer-sized unsigned type keeps the low
    [pointer_bits] bits. *)
Definition to_pointer_sized (v : N) : N := (v mod 2 ^ pointer_bits)%N.

End Literal.

Import Cpp.

(** ** States used as concrete inputs *)

Definition VMALLOC_END_default : macro := object_like ["0xe0000000"].

Definition empty_state : pstate := PState ∅ [] [].

(** An earlier header chose another end of the vmalloc area. *)
Definition board_override : pstate :=
  PState {[ VMALLOC_END := object_like ["0xf0000000"] ]} [] [].

(** The guard name is taken, [VMALLOC_END] is not defined. *)
Definition guard_collision : pstate :=
  PState {[ GUARD := object_like ["1"] ]} [] [].

(** A translation unit that has already seen some text and another macro. *)
Definition busy_state : pstate :=
  PState {[ "PAGE_OFFSET" := object_like ["0xc0000000"] ]} [] ["int"; "x;"].

(** The three cases together: what one inclusion does to a state. *)
Inductive include_case (st : pstate) : pstate -> Prop :=
  | case_guarded :
      is_Some (macros st !! GUARD) ->
      include_case st st
  | case_override V :
      macros st !! GUARD = None ->
      macros st !! VMALLOC_END = Some V ->
      include_case st
        {| macros := <[GUARD := object_like []]> (macros st);
           diags := diags st; out := out st |}
  | case_fresh :
      macros st !! GUARD = None ->
      macros st !! VMALLOC_END = None ->
      include_case st
        {| macros := <[VMALLOC_END := VMALLOC_END_default]>
                       (<[GUARD := object_like []]> (macros st));
           diags := diags st; out := out st |}.

(** ** The header inside an including file *)

(** The directive lines of vmalloc.h, as [parse_file] reads them; an
    [#include] splices them into the lines of the including file. *)
Definition vmalloc_h_directives : list line :=
  match parse_file Source.vmalloc_h_text with
  | Some ls => ls
  | None => []
  end.

(** Lines 1 to 26 of the header: the licence comment and the empty line that
    follows it. *)
Definition vmalloc_h_banner_text : string :=
  Source.join_lines (take 26 Source.vmalloc_h_lines).

(** Lines 27 to 34: the header without its licence comment. *)
Definition vmalloc_h_body_text : string :=
  Source.join_lines (drop 26 Source.vmalloc_h_lines).

(** ** The model on small inputs *)

Example words_of_define_line :
  Lexer.words ("#define VMALLOC_END" +:+ Source.TAB +:+ "0xe0000000")
  = ["#define"; "VMALLOC_END"; "0xe0000000"].
Proof. reflexivity. Qed.

Example comment_becomes_space :
  Lexer.strip_comments false "#endif /* G */" = Some "#endif  ".
Proof. reflexivity. Qed.

Example open_comment_rejected :
  preprocess "#ifndef A /* no end" empty_state = Err UnterminatedComment.
Proof. reflexivity. Qed.

Example endif_alone_rejected :
  preprocess "#endif" empty_state = Err EndifWithoutIf.
Proof. reflexivity. Qed.

Example open_conditional_rejected :
  preprocess "#ifndef A" empty_state = Err UnterminatedConditional.
Proof. reflexivity. Qed.

Example other_directive_rejected :
  preprocess "#pragma once" empty_state
  = Err (UnsupportedDirective ["pragma"; "once"]).
Proof. reflexivity. Qed.

Example conflicting_define_diagnosed :
  preprocess ("#define A 1" +:+ Source.LF +:+ "#define A 2") empty_state
  = Ok (PState {[ "A" := object_like ["2"] ]} [Redefined "A"] []).
Proof. vm_compute. reflexivity. Qed.

Example repeated_define_accepted :
  preprocess ("#define A 1" +:+ Source.LF +:+ "#define A 1") empty_state
  = Ok (PState {[ "A" := object_like ["1"] ]} [] []).
Proof. vm_compute. reflexivity. Qed.

Example text_line_emitted :
  preprocess ("#ifndef A" +:+ Source.LF +:+ "int x;" +:+ Source.LF +:+ "#endif")
             empty_state
  = Ok (PState ∅ [] ["int"; "x;"]).
Proof. vm_compute. reflexivity. Qed.

Example include_from_empty_state :
  include_vmalloc_h empty_state
  = Ok (PState (<[VMALLOC_END := VMALLOC_END_default]>
                  (<[GUARD := object_like []]> ∅)) [] []).
Proof. vm_compute. reflexivity. Qed.

Example include_with_board_override :
  include_vmalloc_h board_override
  = Ok (PState (<[GUARD := object_like []]> (macros board_override)) [] []).
Proof. vm_compute. reflexivity. Qed.

Example include_with_guard_collision :
  include_vmalloc_h guard_collision = Ok guard_collision.
Proof. vm_compute. reflexivity. Qed.

Example include_three_times :
  include_times 3 empty_state = include_vmalloc_h empty_state.
Proof. vm_compute. reflexivity. Qed.

Example literal_hex : Literal.parse_int_literal "0xe0000000" = Some 3758096384%N.
Proof. reflexivity. Qed.

Example literal_octal : Literal.parse_int_literal "010" = Some 8%N.
Proof. reflexivity. Qed.

Example literal_bad_digit : Literal.parse_int_literal "12a" = None.
Proof. reflexivity. Qed.

Example literal_too_wide :
  Literal.to_pointer_sized 4294967296 = 0%N.
Proof. reflexivity. Qed.

(** ** The header, line by line *)

Lemma vmalloc_h_parsed :
  parse_file Source.vmalloc_h_text =
  Some [ Text []; Text [];
         Ifndef GUARD;
         Define GUARD (object_like []);
         Text [];
         Ifndef VMALLOC_END;
         Define VMALLOC_END VMALLOC_END_default;
         Endif;
         Text [];
         Endif ].
Proof. vm_compute. reflexivity. Qed.

Lemma guard_ne_vmalloc_end : GUARD ≠ VMALLOC_END.
Proof. discriminate. Qed.

Ltac run_header :=
  unfold include_vmalloc_h, preprocess; rewrite vmalloc_h_parsed;
  cbn [run exec_line active forallb emit andb negb];
  unfold defined, define.

Ltac settle_lookups :=
  cbn [andb negb macros diags out];
  rewrite ?lookup_insert_ne by apply guard_ne_vmalloc_end.

(** Guard already defined: every line of the body is skipped. *)
Lemma include_guarded (st : pstate) :
  is_Some (macros st !! GUARD) -> include_vmalloc_h st = Ok st.
Proof.
  intros [m Hm]. run_header. rewrite !Hm. settle_lookups. reflexivity.
Qed.

(** Guard free, [VMALLOC_END] already defined: only the guard is entered. *)
Lemma include_override (st : pstate) (V : macro) :
  macros st !! GUARD = None ->
  macros st !! VMALLOC_END = Some V ->
  include_vmalloc_h st =
  Ok {| macros := <[GUARD := object_like []]> (macros st);
        diags := diags st; out := out st |}.
Proof.
  intros Hg Hv. run_header. rewrite !Hg. settle_lookups.
  rewrite !Hv. settle_lookups. reflexivity.
Qed.

(** Guard free, [VMALLOC_END] free: the guard and the default are entered. *)
Lemma include_fresh (st : pstate) :
  macros st !! GUARD = None ->
  macros st !! VMALLOC_END = None ->
  include_vmalloc_h st =
  Ok {| macros := <[VMALLOC_END := VMALLOC_END_default]>
                    (<[GUARD := object_like []]> (macros st));
        diags := diags st; out := out st |}.
Proof.
  intros Hg Hv. run_header. rewrite !Hg. settle_lookups.
  rewrite !Hv. settle_lookups. reflexivity.
Qed.

Lemma include_total (st : pstate) :
  exists st', include_vmalloc_h st = Ok st' /\ include_case st st'.
Proof.
  destruct (macros st !! GUARD) as [g|] eqn:Hg.
  - exists st. split; [apply include_guarded; eauto | constructor; eauto].
  - destruct (macros st !! VMALLOC_END) as [V|] eqn:Hv.
    + eexists. split; [eapply include_override; eauto | econstructor; eauto].
    + eexists. split; [apply include_fresh; auto | constructor; auto].
Qed.

Lemma include_case_diags st st' : include_case st st' -> diags st' = diags st.
Proof. destruct 1; reflexivity. Qed.

Lemma include_case_out st st' : include_case st st' -> out st' = out st.
Proof. destruct 1; reflexivity. Qed.

Lemma include_case_guard st st' :
  include_case st st' -> is_Some (macros st' !! GUARD).
Proof.
  destruct 1 as [Hg | V Hg Hv | Hg Hv]; cbn [macros]; [exact Hg | |].
  - rewrite lookup_insert_eq. eauto.
  - rewrite lookup_insert_ne by (symmetry; apply guard_ne_vmalloc_end).
    rewrite lookup_insert_eq. eauto.
Qed.

Lemma include_case_other st st' n :
  include_case st st' -> n <> VMALLOC_END -> n <> GUARD ->
  macros st' !! n = macros st !! n.
Proof.
  destruct 1; intros Hv Hg; cbn [macros]; [reflexivity | |].
  - rewrite lookup_insert_ne by congruence. reflexivity.
  - rewrite !lookup_insert_ne by congruence. reflexivity.
Qed.

Lemma include_case_preserves st st' n m :
  include_case st st' -> macros st !! n = Some m -> macros st' !! n = Some m.
Proof.
  destruct 1 as [Hg | V Hg Hv | Hg Hv]; intros Hn; cbn [macros]; [exact Hn | |].
  - rewrite lookup_insert_ne by congruence. exact Hn.
  - rewrite !lookup_insert_ne by congruence. exact Hn.
Qed.

Lemma include_case_vmalloc_end st st' :
  include_case st st' ->
  macros st' !! VMALLOC_END =
    match macros st !! GUARD, macros st !! VMALLOC_END with
    | Some _, v => v
    | None, Some V => Some V
    | None, None => Some VMALLOC_END_default
    end.
Proof.
  destruct 1 as [[g Hg] | V Hg Hv | Hg Hv]; cbn [macros]; rewrite Hg.
  - reflexivity.
  - rewrite lookup_insert_ne by apply guard_ne_vmalloc_end. rewrite Hv. reflexivity.
  - rewrite lookup_insert_eq, Hv. reflexivity.
Qed.

Lemma include_result_unique st s1 s2 :
  include_vmalloc_h st = Ok s1 -> include_vmalloc_h st = Ok s2 -> s1 = s2.
Proof. congruence. Qed.

Lemma include_case_guard_value st st' :
  include_case st st' ->
  macros st' !! GUARD =
    match macros st !! GUARD with
    | Some g => Some g
    | None => Some (object_like [])
    end.
Proof.
  destruct 1 as [[g Hg] | V Hg Hv | Hg Hv]; cbn [macros]; rewrite Hg.
  - reflexivity.
  - apply lookup_insert_eq.
  - rewrite lookup_insert_ne by (symmetry; apply guard_ne_vmalloc_end).
    apply lookup_insert_eq.
Qed.

Lemma include_case_dom st st' :
  include_case st st' ->
  dom (macros st) ⊆ dom (macros st') /\
  dom (macros st') ⊆ dom (macros st) ∪ {[ GUARD; VMALLOC_END ]}.
Proof.
  destruct 1 as [Hg | V Hg Hv | Hg Hv]; clear; cbn [macros];
    rewrite ?dom_insert_L; split; intros x; rewrite ?elem_of_union, ?elem_of_singleton; tauto.
Qed.

(** A second inclusion finds the guard and does nothing. *)
Lemma include_again st st' :
  include_case st st' -> include_vmalloc_h st' = Ok st'.
Proof. intros H. apply include_guarded. eapply include_case_guard; eauto. Qed.

Lemma include_times_fixed st n :
  include_vmalloc_h st = Ok st -> include_times n st = Ok st.
Proof.
  intros H. induction n as [|n IH]; cbn [include_times]; [reflexivity|].
  rewrite H. exact IH.
Qed.

(** ** The claims *)

(** C1: when neither [VMALLOC_END] nor the guard
    [__GM_PLATFORM_VMALLOC_HEADER__] is defined before the header is
    included, the inclusion succeeds and afterwards [VMALLOC_END] is defined
    as an object-like macro whose replacement list is exactly [0xe0000000]. *)
Theorem vmalloc_end_default_installed (st : pstate) :
  macros st !! VMALLOC_END = None ->
  macros st !! GUARD = None ->
  exists st', include_vmalloc_h st = Ok st' /\
              macros st' !! VMALLOC_END = Some (object_like ["0xe0000000"]).
Proof.
  intros Hv Hg. eexists. split; [apply include_fresh; assumption|].
  cbn [macros]. apply lookup_insert_eq.
Qed.

Lemma vmalloc_end_default_installed_witness :
  macros empty_state !! VMALLOC_END = None /\
  macros empty_state !! GUARD = None /\
  exists st', include_vmalloc_h empty_state = Ok st' /\
              macros st' !! VMALLOC_END = Some (object_like ["0xe0000000"]).
Proof.
  split; [reflexivity|]. split; [reflexivity|].
  apply (vmalloc_end_default_installed empty_state); reflexivity.
Defined.

(** C2: when [VMALLOC_END] is already defined to some value V before the
    header is included, the inclusion succeeds and afterwards [VMALLOC_END]
    still expands to V: the earlier definition takes precedence over the
    header's default, so for V another value than [0xe0000000] it does not
    expand to [0xe0000000]. *)
Theorem vmalloc_end_override_wins (st : pstate) (V : macro) :
  macros st !! VMALLOC_END = Some V ->
  exists st', include_vmalloc_h st = Ok st' /\
              macros st' !! VMALLOC_END = Some V /\
              (V <> object_like ["0xe0000000"] ->
               macros st' !! VMALLOC_END <> Some (object_like ["0xe0000000"])).
Proof.
  intros Hv. destruct (include_total st) as (st' & Hrun & Hcase).
  exists st'. split; [exact Hrun|].
  assert (Hv' : macros st' !! VMALLOC_END = Some V)
    by (eapply include_case_preserves; eauto).
  split; [exact Hv'|]. intros Hne. rewrite Hv'. congruence.
Qed.

Lemma vmalloc_end_override_wins_witness :
  macros board_override !! VMALLOC_END = Some (object_like ["0xf0000000"]) /\
  exists st', include_vmalloc_h board_override = Ok st' /\
              macros st' !! VMALLOC_END = Some (object_like ["0xf0000000"]) /\
              (object_like ["0xf0000000"] <> object_like ["0xe0000000"] ->
               macros st' !! VMALLOC_END <> Some (object_like ["0xe0000000"])).
Proof.
  split; [reflexivity|].
  apply (vmalloc_end_override_wins board_override); reflexivity.
Defined.

(** C3: including the header a second time, or any further number of times,
    leaves the state reached by the first inclusion unchanged, and no
    inclusion issues a diagnostic (in particular no redefinition
    diagnostic), from every state. *)
Theorem include_idempotent (st : pstate) :
  exists st1, include_vmalloc_h st = Ok st1 /\
              include_vmalloc_h st1 = Ok st1 /\
              (forall n, include_times (S n) st = Ok st1) /\
              diags st1 = diags st.
Proof.
  destruct (include_total st) as (st1 & Hrun & Hcase).
  pose proof (include_again _ _ Hcase) as Hagain.
  exists st1. repeat split; [exact Hrun | exact Hagain | | ].
  - intros n. cbn [include_times]. rewrite Hrun.
    apply include_times_fixed. exact Hagain.
  - eapply include_case_diags; eauto.
Qed.

(** C4, as stated, at a state in which the guard name is already taken and
    [VMALLOC_END] is not defined: the inclusion skips the whole body and
    [VMALLOC_END] is not defined afterwards. *)
Lemma vmalloc_end_defined_after_counterexample :
  ~ (exists st', include_vmalloc_h guard_collision = Ok st' /\
                 is_Some (macros st' !! VMALLOC_END)).
Proof.
  intros (st' & Hrun & m & Hm).
  assert (Hskip : include_vmalloc_h guard_collision = Ok guard_collision)
    by (vm_compute; reflexivity).
  rewrite Hskip in Hrun. injection Hrun as <-.
  vm_compute in Hm. discriminate Hm.
Qed.

(** C4 (amended): from every state in which the guard
    [__GM_PLATFORM_VMALLOC_HEADER__] is not yet defined, or in which
    [VMALLOC_END] is already defined, the inclusion succeeds and
    [VMALLOC_END] is defined afterwards. *)
Theorem vmalloc_end_defined_after (st : pstate) :
  macros st !! GUARD = None \/ is_Some (macros st !! VMALLOC_END) ->
  exists st', include_vmalloc_h st = Ok st' /\
              is_Some (macros st' !! VMALLOC_END).
Proof.
  intros Hpre. destruct (include_total st) as (st' & Hrun & Hcase).
  exists st'. split; [exact Hrun|].
  rewrite (include_case_vmalloc_end _ _ Hcase).
  destruct Hpre as [Hg | [V HV]].
  - rewrite Hg. destruct (macros st !! VMALLOC_END); eauto.
  - rewrite HV. destruct (macros st !! GUARD); eauto.
Qed.

Lemma vmalloc_end_defined_after_witness :
  (macros empty_state !! GUARD = None \/
   is_Some (macros empty_state !! VMALLOC_END)) /\
  exists st', include_vmalloc_h empty_state = Ok st' /\
              is_Some (macros st' !! VMALLOC_END).
Proof.
  split; [left; reflexivity|].
  apply (vmalloc_end_defined_after empty_state). left. reflexivity.
Defined.

(** C5: from every state the inclusion succeeds, and it changes at most the
    entries of the macro table for [VMALLOC_END] and
    [__GM_PLATFORM_VMALLOC_HEADER__]: every other name is defined afterwards
    exactly when it was before, with the same definition; no token is passed
    on to the compiler, and the diagnostics are the same as before. *)
Theorem include_frame (st : pstate) :
  exists st', include_vmalloc_h st = Ok st' /\
              (forall n, n <> VMALLOC_END -> n <> GUARD ->
                         macros st' !! n = macros st !! n) /\
              out st' = out st /\
              diags st' = diags st.
Proof.
  destruct (include_total st) as (st' & Hrun & Hcase).
  exists st'. split; [exact Hrun|]. split; [|split].
  - intros n Hv Hg. eapply include_case_other; eauto.
  - eapply include_case_out; eauto.
  - eapply include_case_diags; eauto.
Qed.

Lemma include_frame_witness :
  exists st', include_vmalloc_h busy_state = Ok st' /\
              (forall n, n <> VMALLOC_END -> n <> GUARD ->
                         macros st' !! n = macros busy_state !! n) /\
              out st' = out busy_state /\
              diags st' = diags busy_state.
Proof. apply (include_frame busy_state). Defined.

(** C6: from every state the inclusion returns a state (it never fails) and
    adds no diagnostic; in particular a definition of [VMALLOC_END] made
    earlier is kept, without any diagnostic. *)
Theorem include_never_fails (st : pstate) :
  exists st', include_vmalloc_h st = Ok st' /\
              diags st' = diags st /\
              (forall V, macros st !! VMALLOC_END = Some V ->
                         macros st' !! VMALLOC_END = Some V).
Proof.
  destruct (include_total st) as (st' & Hrun & Hcase).
  exists st'. split; [exact Hrun|]. split.
  - eapply include_case_diags; eauto.
  - intros V HV. eapply include_case_preserves; eauto.
Qed.

Lemma include_never_fails_witness :
  exists st', include_vmalloc_h board_override = Ok st' /\
              diags st' = diags board_override /\
              (forall V, macros board_override !! VMALLOC_END = Some V ->
                         macros st' !! VMALLOC_END = Some V).
Proof. apply (include_never_fails board_override). Defined.

(** C7: the default the header installs is the single token [0xe0000000];
    read as a C integer constant its value is 3758096384, which is below
    2^32, so conversion to the 32-bit pointer-sized unsigned type leaves it
    unchanged. *)
Theorem default_fits_pointer :
  exists st' m tok v,
    include_vmalloc_h empty_state = Ok st' /\
    macros st' !! VMALLOC_END = Some m /\
    body m = [tok] /\
    Literal.parse_int_literal tok = Some v /\
    v = 3758096384%N /\
    (v < 2 ^ Literal.pointer_bits)%N /\
    Literal.to_pointer_sized v = v.
Proof.
  eexists _, VMALLOC_END_default, "0xe0000000", 3758096384%N.
  split; [apply include_fresh; reflexivity|].
  split; [cbn [macros]; apply lookup_insert_eq|].
  repeat split; vm_compute; reflexivity.
Qed.

(** C8: when the guard [__GM_PLATFORM_VMALLOC_HEADER__] is already defined
    before the inclusion, the inclusion succeeds and leaves the state as it
    was: the body is skipped, and a [VMALLOC_END] that was not defined is
    still not defined, so the default is not installed. *)
Theorem guard_predefined_skips_body (st : pstate) (g : macro) :
  macros st !! GUARD = Some g ->
  exists st', include_vmalloc_h st = Ok st' /\
              st' = st /\
              (macros st !! VMALLOC_END = None ->
               macros st' !! VMALLOC_END = None).
Proof.
  intros Hg. exists st. split; [apply include_guarded; eauto|].
  split; [reflexivity | tauto].
Qed.

Lemma guard_predefined_skips_body_witness :
  macros guard_collision !! GUARD = Some (object_like ["1"]) /\
  exists st', include_vmalloc_h guard_collision = Ok st' /\
              st' = guard_collision /\
              (macros guard_collision !! VMALLOC_END = None ->
               macros st' !! VMALLOC_END = None).
Proof.
  split; [reflexivity|].
  apply (guard_predefined_skips_body guard_collision (object_like ["1"])).
  reflexivity.
Defined.

(** C9: the inclusion is a function of the state, and its effect on
    [VMALLOC_END] and [__GM_PLATFORM_VMALLOC_HEADER__] depends only on those
    two entries: two states that agree on them are both accepted, agree on
    them afterwards, and neither run adds a token or a diagnostic; two equal
    states give equal states. *)
Theorem include_deterministic (s1 s2 : pstate) :
  macros s1 !! VMALLOC_END = macros s2 !! VMALLOC_END ->
  macros s1 !! GUARD = macros s2 !! GUARD ->
  exists s1' s2',
    include_vmalloc_h s1 = Ok s1' /\
    include_vmalloc_h s2 = Ok s2' /\
    macros s1' !! VMALLOC_END = macros s2' !! VMALLOC_END /\
    macros s1' !! GUARD = macros s2' !! GUARD /\
    (out s1' = out s1 /\ diags s1' = diags s1) /\
    (out s2' = out s2 /\ diags s2' = diags s2) /\
    (s1 = s2 -> s1' = s2').
Proof.
  intros Hv Hg.
  destruct (include_total s1) as (s1' & Hrun1 & Hcase1).
  destruct (include_total s2) as (s2' & Hrun2 & Hcase2).
  exists s1', s2'. split; [exact Hrun1|]. split; [exact Hrun2|].
  split; [|split; [|split; [|split]]].
  - rewrite (include_case_vmalloc_end _ _ Hcase1),
            (include_case_vmalloc_end _ _ Hcase2), Hv, Hg. reflexivity.
  - rewrite (include_case_guard_value _ _ Hcase1),
            (include_case_guard_value _ _ Hcase2), Hg. reflexivity.
  - split; [eapply include_case_out | eapply include_case_diags]; eauto.
  - split; [eapply include_case_out | eapply include_case_diags]; eauto.
  - intros ->. eapply include_result_unique; eauto.
Qed.

Lemma include_deterministic_witness :
  macros empty_state !! VMALLOC_END = macros busy_state !! VMALLOC_END /\
  macros empty_state !! GUARD = macros busy_state !! GUARD /\
  exists s1' s2',
    include_vmalloc_h empty_state = Ok s1' /\
    include_vmalloc_h busy_state = Ok s2' /\
    macros s1' !! VMALLOC_END = macros s2' !! VMALLOC_END /\
    macros s1' !! GUARD = macros s2' !! GUARD /\
    (out s1' = out empty_state /\ diags s1' = diags empty_state) /\
    (out s2' = out busy_state /\ diags s2' = diags busy_state) /\
    (empty_state = busy_state -> s1' = s2').
Proof.
  split; [reflexivity|]. split; [reflexivity|].
  apply (include_deterministic empty_state busy_state); reflexivity.
Defined.

(** C10: from every state the inclusion succeeds and every macro defined
    before is defined afterwards with the same definition (a [VMALLOC_END]
    defined earlier included); the set of defined names only grows, and by
    no other name than [__GM_PLATFORM_VMALLOC_HEADER__] and [VMALLOC_END]. *)
Theorem include_preserves_definitions (st : pstate) :
  exists st', include_vmalloc_h st = Ok st' /\
              (forall n m, macros st !! n = Some m -> macros st' !! n = Some m) /\
              dom (macros st) ⊆ dom (macros st') /\
              dom (macros st') ⊆ dom (macros st) ∪ {[ GUARD; VMALLOC_END ]}.
Proof.
  destruct (include_total st) as (st' & Hrun & Hcase).
  exists st'. split; [exact Hrun|]. split.
  - intros n m Hn. eapply include_case_preserves; eauto.
  - eapply include_case_dom; eauto.
Qed.

Lemma include_preserves_definitions_witness :
  exists st', include_vmalloc_h busy_state = Ok st' /\
              (forall n m, macros busy_state !! n = Some m ->
                           macros st' !! n = Some m) /\
              dom (macros busy_state) ⊆ dom (macros st') /\
              dom (macros st') ⊆ dom (macros busy_state) ∪ {[ GUARD; VMALLOC_END ]}.
Proof. apply (include_preserves_definitions busy_state). Defined.

(** ** The header among other lines *)

Lemma vmalloc_h_directives_eq :
  vmalloc_h_directives =
  [ Text []; Text [];
    Ifndef GUARD;
    Define GUARD (object_like []);
    Text [];
    Ifndef VMALLOC_END;
    Define VMALLOC_END VMALLOC_END_default;
    Endif;
    Text [];
    Endif ].
Proof. unfold vmalloc_h_directives. rewrite vmalloc_h_parsed. reflexivity. Qed.

Ltac run_spliced :=
  rewrite vmalloc_h_directives_eq;
  cbn [app run exec_line emit active forallb andb negb];
  unfold defined, define.

(** Spliced where lines are being processed, the header acts as one
    inclusion and hands the conditional stack back as it got it. *)
Lemma run_spliced_active cs st st' rest :
  active cs = true ->
  include_case st st' ->
  run (vmalloc_h_directives ++ rest) cs st = run rest cs st'.
Proof.
  intros Hact Hcase. pose proof Hact as Hall. unfold active in Hall.
  run_spliced.
  destruct Hcase as [[g Hg] | V Hg Hv | Hg Hv];
    repeat (rewrite ?Hact, ?Hall, ?Hg, ?Hv; settle_lookups); reflexivity.
Qed.

(** Spliced into a group that is being skipped, the header does nothing. *)
Lemma run_spliced_skipped cs st rest :
  active cs = false ->
  run (vmalloc_h_directives ++ rest) cs st = run rest cs st.
Proof.
  intros Hact. pose proof Hact as Hall. unfold active in Hall.
  run_spliced. repeat (rewrite ?Hact, ?Hall; settle_lookups). reflexivity.
Qed.

Lemma define_lookup_other n m k st :
  k <> n -> macros (define n m st) !! k = macros st !! k.
Proof.
  intros Hk. unfold define.
  destruct (macros st !! n) as [m'|]; [destruct (decide (m' = m))|];
    cbn [macros]; rewrite ?lookup_insert_ne by congruence; reflexivity.
Qed.

(** Entering [k] and an unrelated [#define n m] can be done in either order. *)
Lemma define_insert_commute n m k v st :
  k <> n ->
  define n m {| macros := <[k := v]> (macros st);
                diags := diags st; out := out st |}
  = {| macros := <[k := v]> (macros (define n m st));
       diags := diags (define n m st); out := out (define n m st) |}.
Proof.
  intros Hk. unfold define. cbn [macros diags out].
  rewrite lookup_insert_ne by exact Hk.
  destruct (macros st !! n) as [m'|]; [destruct (decide (m' = m))|];
    cbn [macros diags out]; try reflexivity;
    (f_equal; apply insert_insert_ne; congruence).
Qed.


Lemma vmalloc_h_banner_parsed :
  parse_file vmalloc_h_banner_text = Some [Text []; Text []].
Proof. vm_compute. reflexivity. Qed.

Lemma vmalloc_h_body_parsed :
  parse_file vmalloc_h_body_text =
  Some [ Ifndef GUARD;
         Define GUARD (object_like []);
         Text [];
         Ifndef VMALLOC_END;
         Define VMALLOC_END VMALLOC_END_default;
         Endif;
         Text [];
         Endif ].
Proof. vm_compute. reflexivity. Qed.

(** ** Further properties of the header *)

(** X1: after every inclusion the guard [__GM_PLATFORM_VMALLOC_HEADER__] is
    defined, whatever the state before; when the header itself enters it
    (it was not defined before), it is an object-like macro with an empty
    replacement list. *)
Theorem guard_defined_after_include (st : pstate) :
  exists st', include_vmalloc_h st = Ok st' /\
              is_Some (macros st' !! GUARD) /\
              (macros st !! GUARD = None ->
               macros st' !! GUARD = Some (object_like [])).
Proof.
  destruct (include_total st) as (st' & Hrun & Hcase).
  exists st'. split; [exact Hrun|]. split.
  - eapply include_case_guard; eauto.
  - intros Hg. rewrite (include_case_guard_value _ _ Hcase), Hg. reflexivity.
Qed.

Lemma guard_defined_after_include_witness :
  exists st', include_vmalloc_h board_override = Ok st' /\
              is_Some (macros st' !! GUARD) /\
              (macros board_override !! GUARD = None ->
               macros st' !! GUARD = Some (object_like [])).
Proof. apply (guard_defined_after_include board_override). Defined.

(** X2: the header's conditionals are balanced.  Spliced into an including
    file at a point where lines are being processed, under any stack of open
    conditionals and before any further lines, its lines act as one
    inclusion and the lines after it are processed under the same stack. *)
Theorem include_spliced_active (cs : list bool) (st : pstate) (rest : list line) :
  active cs = true ->
  exists st', include_vmalloc_h st = Ok st' /\
              run (vmalloc_h_directives ++ rest) cs st = run rest cs st'.
Proof.
  intros Hact. destruct (include_total st) as (st' & Hrun & Hcase).
  exists st'. split; [exact Hrun|].
  apply run_spliced_active; assumption.
Qed.

Lemma include_spliced_active_witness :
  active [true] = true /\
  exists st', include_vmalloc_h empty_state = Ok st' /\
              run (vmalloc_h_directives ++ [Text ["int"; "x;"]; Endif])
                  [true] empty_state
              = run [Text ["int"; "x;"]; Endif] [true] st'.
Proof.
  split; [reflexivity|].
  apply (include_spliced_active [true] empty_state [Text ["int"; "x;"]; Endif]).
  reflexivity.
Defined.

(** X3: spliced into a group that is being skipped, the header changes
    nothing, even when neither the guard nor [VMALLOC_END] is defined: the
    state and the stack of open conditionals reach the following lines as
    they were. *)
Theorem include_spliced_skipped (cs : list bool) (st : pstate) (rest : list line) :
  active cs = false ->
  run (vmalloc_h_directives ++ rest) cs st = run rest cs st.
Proof. apply run_spliced_skipped. Qed.

Lemma include_spliced_skipped_witness :
  active [false] = false /\
  run (vmalloc_h_directives ++ [Endif]) [false] empty_state
  = run [Endif] [false] empty_state.
Proof.
  split; [reflexivity|].
  apply (include_spliced_skipped [false] empty_state [Endif]). reflexivity.
Defined.

(** X4: the inclusion commutes with the definition of any other macro: for a
    name other than the guard and [VMALLOC_END], defining it before the
    inclusion or after it gives the same state, diagnostics included. *)
Theorem include_commutes_with_define (st : pstate) (n : string) (m : macro) :
  n <> GUARD ->
  n <> VMALLOC_END ->
  exists st', include_vmalloc_h st = Ok st' /\
              include_vmalloc_h (define n m st) = Ok (define n m st').
Proof.
  intros Hg Hv. destruct (include_total st) as (st' & Hrun & Hcase).
  exists st'. split; [exact Hrun|].
  destruct Hcase as [[g HG] | V HG HV | HG HV].
  - apply include_guarded. rewrite define_lookup_other by congruence. eauto.
  - rewrite define_insert_commute by congruence.
    apply (include_override _ V); rewrite define_lookup_other by congruence;
      assumption.
  - etransitivity;
      [apply include_fresh; rewrite define_lookup_other by congruence; assumption|].
    pose proof (define_insert_commute n m VMALLOC_END VMALLOC_END_default
                  {| macros := <[GUARD := object_like []]> (macros st);
                     diags := diags st; out := out st |}) as Houter.
    cbn [macros diags out] in Houter. rewrite Houter by congruence.
    rewrite define_insert_commute by congruence. reflexivity.
Qed.

Lemma include_commutes_with_define_witness :
  "PAGE_OFFSET" <> GUARD /\
  "PAGE_OFFSET" <> VMALLOC_END /\
  exists st', include_vmalloc_h busy_state = Ok st' /\
              include_vmalloc_h
                (define "PAGE_OFFSET" (object_like ["0x80000000"]) busy_state)
              = Ok (define "PAGE_OFFSET" (object_like ["0x80000000"]) st').
Proof.
  split; [discriminate|]. split; [discriminate|].
  apply (include_commutes_with_define busy_state "PAGE_OFFSET"
           (object_like ["0x80000000"])); discriminate.
Defined.

(** X5: a [#define VMALLOC_END] placed on the line before the header, in a
    state where [VMALLOC_END] is not yet defined, is what [VMALLOC_END]
    expands to after the header, and no diagnostic or token is added. *)
Theorem define_before_include (st : pstate) (m : macro) :
  macros st !! VMALLOC_END = None ->
  exists st', run (Define VMALLOC_END m :: vmalloc_h_directives) [] st = Ok st' /\
              macros st' !! VMALLOC_END = Some m /\
              diags st' = diags st /\
              out st' = out st.
Proof.
  intros Hv.
  assert (Hdef : define VMALLOC_END m st =
                 {| macros := <[VMALLOC_END := m]> (macros st);
                    diags := diags st; out := out st |})
    by (unfold define; rewrite Hv; reflexivity).
  destruct (include_total (define VMALLOC_END m st)) as (st' & Hrun & Hcase).
  exists st'. split; [|split; [|split]].
  - cbn [run exec_line active forallb].
    rewrite <- (app_nil_r vmalloc_h_directives).
    rewrite (run_spliced_active [] _ st' []); [reflexivity | reflexivity | exact Hcase].
  - apply (include_case_preserves _ _ _ _ Hcase).
    rewrite Hdef. cbn [macros]. apply lookup_insert_eq.
  - rewrite (include_case_diags _ _ Hcase), Hdef. reflexivity.
  - rewrite (include_case_out _ _ Hcase), Hdef. reflexivity.
Qed.

Lemma define_before_include_witness :
  macros busy_state !! VMALLOC_END = None /\
  exists st', run (Define VMALLOC_END (object_like ["0xf0000000"])
                     :: vmalloc_h_directives) [] busy_state = Ok st' /\
              macros st' !! VMALLOC_END = Some (object_like ["0xf0000000"]) /\
              diags st' = diags busy_state /\
              out st' = out busy_state.
Proof.
  split; [reflexivity|].
  apply (define_before_include busy_state (object_like ["0xf0000000"])).
  reflexivity.
Defined.

(** X6: the header gives no protection against a later definition.  When
    the header has installed its default (neither the guard nor
    [VMALLOC_END] was defined before), a [#define VMALLOC_END] on the line
    after it takes effect, and is diagnosed as a redefinition exactly when
    it differs from the default. *)
Theorem define_after_include (st : pstate) (m : macro) :
  macros st !! GUARD = None ->
  macros st !! VMALLOC_END = None ->
  exists st', run (vmalloc_h_directives ++ [Define VMALLOC_END m]) [] st = Ok st' /\
              macros st' !! VMALLOC_END = Some m /\
              diags st' = (if decide (m = VMALLOC_END_default) then diags st
                           else diags st ++ [Redefined VMALLOC_END]) /\
              out st' = out st.
Proof.
  intros Hg Hv.
  rewrite (run_spliced_active [] st _ _ eq_refl (case_fresh st Hg Hv)).
  cbn [run exec_line active forallb]. eexists. split; [reflexivity|].
  unfold define. cbn [macros diags out]. rewrite lookup_insert_eq.
  destruct (decide (VMALLOC_END_default = m)) as [<- | Hne].
  - cbn [macros diags out]. rewrite lookup_insert_eq.
    rewrite decide_True by reflexivity. auto.
  - cbn [macros diags out]. rewrite lookup_insert_eq.
    rewrite decide_False by congruence. auto.
Qed.

Lemma define_after_include_witness :
  macros empty_state !! GUARD = None /\
  macros empty_state !! VMALLOC_END = None /\
  exists st', run (vmalloc_h_directives
                     ++ [Define VMALLOC_END (object_like ["0xf0000000"])])
                  [] empty_state = Ok st' /\
              macros st' !! VMALLOC_END = Some (object_like ["0xf0000000"]) /\
              diags st' = (if decide (object_like ["0xf0000000"] = VMALLOC_END_default)
                           then diags empty_state
                           else diags empty_state ++ [Redefined VMALLOC_END]) /\
              out st' = out empty_state.
Proof.
  split; [reflexivity|]. split; [reflexivity|].
  apply (define_after_include empty_state (object_like ["0xf0000000"]));
    reflexivity.
Defined.

(** X7: the licence comment of lines 1 to 25 is closed and holds no
    directive and no token: processed alone (with the empty line 26) it
    leaves every state as it is, and the header without these lines behaves
    as the whole header from every state. *)
Theorem licence_comment_inert (st : pstate) :
  preprocess vmalloc_h_banner_text st = Ok st /\
  preprocess vmalloc_h_body_text st = include_vmalloc_h st.
Proof.
  unfold include_vmalloc_h, preprocess.
  rewrite vmalloc_h_banner_parsed, vmalloc_h_body_parsed, vmalloc_h_parsed.
  split; cbn [run exec_line emit active forallb]; reflexivity.
Qed.
